(** * TimerHelpers: mode, clock and port set-up of the three AVR timers

    A shallow embedding of [src/VGA_output/TimerHelpers.h] (Nick Gammon's
    Timer Helpers library) and the properties of its [setMode] routines.

    - a [byte] is a [Z] in [0, 256); a store into a byte wraps modulo 256;
    - the six timer control registers [TCCRnA], [TCCRnB] are 8-bit cells
      of a register file [Regs], which is threaded through a small state
      monad whose failure outcome stands for an out-of-bounds array read;
    - the bit numbers [WGMnx], [COMnxy] come from the device header
      [<avr/io.h>], which is not part of the library: they are the fields
      of a record [IoDefs], and the development is parametric in it.
      [atmega328p] is the instance for the device whose pins the comments
      of the header name (Arduino Uno). *)

From Stdlib Require Import ZArith List Ascii String Bool Lia.
Import ListNotations.

Local Open Scope string_scope.
Local Open Scope Z_scope.

(* ================================================================= *)
(** ** Bytes *)

Definition is_byte (z : Z) : Prop := 0 <= z < 256.

(** Conversion to [byte] (unsigned 8 bit): reduction modulo 256. *)
Definition to_byte (z : Z) : Z := z mod 256.

(** [#define _BV(bit) (1 << (bit))] *)
Definition _BV (bit : Z) : Z := Z.shiftl 1 bit.

(* ================================================================= *)
(** ** The device header *)

(** Bit numbers that [TimerHelpers.h] takes from [<avr/io.h>]. *)
Record IoDefs : Set := mkIoDefs {
  WGM00 : Z; WGM01 : Z; WGM02 : Z;
  COM0A0 : Z; COM0A1 : Z; COM0B0 : Z; COM0B1 : Z;
  WGM10 : Z; WGM11 : Z; WGM12 : Z; WGM13 : Z;
  COM1A0 : Z; COM1A1 : Z; COM1B0 : Z; COM1B1 : Z;
  WGM20 : Z; WGM21 : Z; WGM22 : Z;
  COM2A0 : Z; COM2A1 : Z; COM2B0 : Z; COM2B1 : Z
}.

(** The ATmega328P (the pins in the header's comments are its pins):
    in every [TCCRnA] the WGM bits are bits 0 and 1 and the COM bits are
    bits 4 to 7; in every [TCCRnB] the clock select field is bits 0 to 2,
    [WGMn2] is bit 3 and [WGM13] is bit 4. *)
Definition atmega328p : IoDefs := {|
  WGM00 := 0; WGM01 := 1; WGM02 := 3;
  COM0A0 := 6; COM0A1 := 7; COM0B0 := 4; COM0B1 := 5;
  WGM10 := 0; WGM11 := 1; WGM12 := 3; WGM13 := 4;
  COM1A0 := 6; COM1A1 := 7; COM1B0 := 4; COM1B1 := 5;
  WGM20 := 0; WGM21 := 1; WGM22 := 3;
  COM2A0 := 6; COM2A1 := 7; COM2B0 := 4; COM2B1 := 5
|}.

(* ================================================================= *)
(** ** The register file *)

Inductive reg : Set :=
  | TCCR0A | TCCR0B
  | TCCR1A | TCCR1B
  | TCCR2A | TCCR2B.

Record Regs : Set := mkRegs {
  tccr0a : Z; tccr0b : Z;
  tccr1a : Z; tccr1b : Z;
  tccr2a : Z; tccr2b : Z
}.

Definition get (r : reg) (s : Regs) : Z :=
  match r with
  | TCCR0A => tccr0a s | TCCR0B => tccr0b s
  | TCCR1A => tccr1a s | TCCR1B => tccr1b s
  | TCCR2A => tccr2a s | TCCR2B => tccr2b s
  end.

Definition set (r : reg) (v : Z) (s : Regs) : Regs :=
  match r with
  | TCCR0A => mkRegs v (tccr0b s) (tccr1a s) (tccr1b s) (tccr2a s) (tccr2b s)
  | TCCR0B => mkRegs (tccr0a s) v (tccr1a s) (tccr1b s) (tccr2a s) (tccr2b s)
  | TCCR1A => mkRegs (tccr0a s) (tccr0b s) v (tccr1b s) (tccr2a s) (tccr2b s)
  | TCCR1B => mkRegs (tccr0a s) (tccr0b s) (tccr1a s) v (tccr2a s) (tccr2b s)
  | TCCR2A => mkRegs (tccr0a s) (tccr0b s) (tccr1a s) (tccr1b s) v (tccr2b s)
  | TCCR2B => mkRegs (tccr0a s) (tccr0b s) (tccr1a s) (tccr1b s) (tccr2a s) v
  end.

Definition reg_eqb (r r' : reg) : bool :=
  match r, r' with
  | TCCR0A, TCCR0A | TCCR0B, TCCR0B
  | TCCR1A, TCCR1A | TCCR1B, TCCR1B
  | TCCR2A, TCCR2A | TCCR2B, TCCR2B => true
  | _, _ => false
  end.

(* ================================================================= *)
(** ** Register-file computations *)

(** A computation reads and writes the register file and returns a value;
    [None] is the outcome of a read outside an array. *)
Definition M (A : Type) : Type := Regs -> option (A * Regs).

Definition ret {A} (a : A) : M A := fun s => Some (a, s).

Definition bind {A B} (m : M A) (k : A -> M B) : M B :=
  fun s => match m s with
           | Some (a, s') => k a s'
           | None => None
           end.

Notation "x <- m ;; k" := (bind m (fun x => k))
  (at level 61, m at next level, right associativity).
Notation "m ;; k" := (bind m (fun _ => k))
  (at level 61, right associativity).

(** Load of a register. *)
Definition read (r : reg) : M Z := fun s => Some (get r s, s).

(** Store into a register: the value is converted to [byte]. *)
Definition write (r : reg) (v : Z) : M unit :=
  fun s => Some (tt, set r (to_byte v) s).

(** [r |= v] *)
Definition or_assign (r : reg) (v : Z) : M unit :=
  old <- read r ;; write r (Z.lor old v).

(** [a [i]]: defined inside the array only. *)
Definition index {A} (a : list A) (i : Z) : option A :=
  if i <? 0 then None else nth_error a (Z.to_nat i).

(** [T [i] [j]] for a two-dimensional table. *)
Definition entry (T : list (list Z)) (i j : Z) : option Z :=
  match index T i with
  | Some row => index row j
  | None => None
  end.

Definition load (T : list (list Z)) (i j : Z) : M Z :=
  fun s => match entry T i j with
           | Some v => Some (v, s)
           | None => None
           end.

(** One row of a [const byte [N] [2]] table: the initialisers are
    converted to [byte]. *)
Definition row (a b : Z) : list Z := [to_byte a; to_byte b].

(* ================================================================= *)
(** ** Enumerations *)

(** An [enum { ... }]: each enumerator has a name and maybe an
    initialiser.  An enumerator without one is the previous enumerator
    plus one, and the first is 0. *)
Fixpoint enum_values_from (next : Z) (ds : list (string * option Z))
  : list (string * Z) :=
  match ds with
  | [] => []
  | (n, None) :: ds' => (n, next) :: enum_values_from (next + 1) ds'
  | (n, Some v) :: ds' => (n, v) :: enum_values_from (v + 1) ds'
  end.

Definition enum_values := enum_values_from 0.

(** The value of a named enumerator. *)
Fixpoint enum_const (e : list (string * Z)) (n : string) : option Z :=
  match e with
  | [] => None
  | (n', v) :: e' => if String.eqb n n' then Some v else enum_const e' n
  end.

(* ================================================================= *)
(** ** Timer 0 *)

Module Timer0.
Section WithIo.
Variable io : IoDefs.

(** [const byte Modes [8] [2]]: TCCR0A, TCCR0B *)
Definition Modes : list (list Z) :=
  [ (* 0: Normal, top = 0xFF *)
    row 0 0;
    (* 1: PWM, Phase-correct, top = 0xFF *)
    row (_BV (WGM00 io)) 0;
    (* 2: CTC, top = OCR0A *)
    row (_BV (WGM01 io)) 0;
    (* 3: Fast PWM, top = 0xFF *)
    row (Z.lor (_BV (WGM00 io)) (_BV (WGM01 io))) 0;
    (* 4: Reserved *)
    row 0 (_BV (WGM02 io));
    (* 5: PWM, Phase-correct, top = OCR0A *)
    row (_BV (WGM00 io)) (_BV (WGM02 io));
    (* 6: Reserved *)
    row (_BV (WGM01 io)) (_BV (WGM02 io));
    (* 7: Fast PWM, top = OCR0A *)
    row (Z.lor (_BV (WGM00 io)) (_BV (WGM01 io))) (_BV (WGM02 io))
  ].

(** Activation *)
Definition clock_enum : list (string * Z) :=
  enum_values
    [ ("NO_CLOCK", None); ("PRESCALE_1", None); ("PRESCALE_8", None);
      ("PRESCALE_64", None); ("PRESCALE_256", None);
      ("PRESCALE_1024", None); ("T0_FALLING", None); ("T0_RISING", None) ].

(** What ports to toggle on timer fire *)
Definition port_enum : list (string * Z) :=
  enum_values
    [ ("NO_PORT", Some 0);
      ("TOGGLE_A_ON_COMPARE", Some (_BV (COM0A0 io)));
      ("CLEAR_A_ON_COMPARE", Some (_BV (COM0A1 io)));
      ("SET_A_ON_COMPARE", Some (Z.lor (_BV (COM0A0 io)) (_BV (COM0A1 io))));
      ("TOGGLE_B_ON_COMPARE", Some (_BV (COM0B0 io)));
      ("CLEAR_B_ON_COMPARE", Some (_BV (COM0B1 io)));
      ("SET_B_ON_COMPARE", Some (Z.lor (_BV (COM0B0 io)) (_BV (COM0B1 io)))) ].

(** The sanity check of [setMode]. *)
Definition out_of_range (mode : Z) : bool := (mode <? 0) || (mode >? 7).

(** Choose a timer mode, set which clock speed, and which port to toggle.
    The three parameters are [const byte]: they hold values in 0..255. *)
Definition setMode (mode clock port : Z) : M unit :=
  if out_of_range mode then ret tt
  else
    (* reset existing flags *)
    write TCCR0A 0 ;;
    write TCCR0B 0 ;;
    m0 <- load Modes mode 0 ;;
    or_assign TCCR0A (Z.lor m0 port) ;;
    m1 <- load Modes mode 1 ;;
    or_assign TCCR0B (Z.lor m1 clock).
End WithIo.
End Timer0.

(* ================================================================= *)
(** ** Timer 1 *)

Module Timer1.
Section WithIo.
Variable io : IoDefs.

(** [const byte Modes [16] [2]]: TCCR1A, TCCR1B *)
Definition Modes : list (list Z) :=
  [ (* 0: Normal, top = 0xFFFF *)
    row 0 0;
    (* 1: PWM, Phase-correct, 8 bit, top = 0xFF *)
    row (_BV (WGM10 io)) 0;
    (* 2: PWM, Phase-correct, 9 bit, top = 0x1FF *)
    row (_BV (WGM11 io)) 0;
    (* 3: PWM, Phase-correct, 10 bit, top = 0x3FF *)
    row (Z.lor (_BV (WGM10 io)) (_BV (WGM11 io))) 0;
    (* 4: CTC, top = OCR1A *)
    row 0 (_BV (WGM12 io));
    (* 5: Fast PWM, 8 bit, top = 0xFF *)
    row (_BV (WGM10 io)) (_BV (WGM12 io));
    (* 6: Fast PWM, 9 bit, top = 0x1FF *)
    row (_BV (WGM11 io)) (_BV (WGM12 io));
    (* 7: Fast PWM, 10 bit, top = 0x3FF *)
    row (Z.lor (_BV (WGM10 io)) (_BV (WGM11 io))) (_BV (WGM12 io));
    (* 8: PWM, phase and frequency correct, top = ICR1 *)
    row 0 (_BV (WGM13 io));
    (* 9: PWM, phase and frequency correct, top = OCR1A *)
    row (_BV (WGM10 io)) (_BV (WGM13 io));
    (* 10: PWM, phase correct, top = ICR1A *)
    row (_BV (WGM11 io)) (_BV (WGM13 io));
    (* 11: PWM, phase correct, top = OCR1A *)
    row (Z.lor (_BV (WGM10 io)) (_BV (WGM11 io))) (_BV (WGM13 io));
    (* 12: CTC, top = ICR1 *)
    row 0 (Z.lor (_BV (WGM12 io)) (_BV (WGM13 io)));
    (* 13: reserved *)
    row (_BV (WGM10 io)) (Z.lor (_BV (WGM12 io)) (_BV (WGM13 io)));
    (* 14: Fast PWM, TOP = ICR1 *)
    row (_BV (WGM11 io)) (Z.lor (_BV (WGM12 io)) (_BV (WGM13 io)));
    (* 15: Fast PWM, TOP = OCR1A *)
    row (Z.lor (_BV (WGM10 io)) (_BV (WGM11 io)))
        (Z.lor (_BV (WGM12 io)) (_BV (WGM13 io)))
  ].

(** Activation *)
Definition clock_enum : list (string * Z) :=
  enum_values
    [ ("NO_CLOCK", None); ("PRESCALE_1", None); ("PRESCALE_8", None);
      ("PRESCALE_64", None); ("PRESCALE_256", None);
      ("PRESCALE_1024", None); ("T1_FALLING", None); ("T1_RISING", None) ].

(** What ports to toggle on timer fire *)
Definition port_enum : list (string * Z) :=
  enum_values
    [ ("NO_PORT", Some 0);
      ("TOGGLE_A_ON_COMPARE", Some (_BV (COM1A0 io)));
      ("CLEAR_A_ON_COMPARE", Some (_BV (COM1A1 io)));
      ("SET_A_ON_COMPARE", Some (Z.lor (_BV (COM1A0 io)) (_BV (COM1A1 io))));
      ("TOGGLE_B_ON_COMPARE", Some (_BV (COM1B0 io)));
      ("CLEAR_B_ON_COMPARE", Some (_BV (COM1B1 io)));
      ("SET_B_ON_COMPARE", Some (Z.lor (_BV (COM1B0 io)) (_BV (COM1B1 io)))) ].

(** The sanity check of [setMode]. *)
Definition out_of_range (mode : Z) : bool := (mode <? 0) || (mode >? 15).

(** Choose a timer mode, set which clock speed, and which port to toggle.
    The three parameters are [const byte]: they hold values in 0..255. *)
Definition setMode (mode clock port : Z) : M unit :=
  if out_of_range mode then ret tt
  else
    (* reset existing flags *)
    write TCCR1A 0 ;;
    write TCCR1B 0 ;;
    m0 <- load Modes mode 0 ;;
    or_assign TCCR1A (Z.lor m0 port) ;;
    m1 <- load Modes mode 1 ;;
    or_assign TCCR1B (Z.lor m1 clock).
End WithIo.
End Timer1.

(* ================================================================= *)
(** ** Timer 2 *)

Module Timer2.
Section WithIo.
Variable io : IoDefs.

(** [const byte Modes [8] [2]]: TCCR2A, TCCR2B *)
Definition Modes : list (list Z) :=
  [ (* 0: Normal, top = 0xFF *)
    row 0 0;
    (* 1: PWM, Phase-correct, top = 0xFF *)
    row (_BV (WGM20 io)) 0;
    (* 2: CTC, top = OCR2A *)
    row (_BV (WGM21 io)) 0;
    (* 3: Fast PWM, top = 0xFF *)
    row (Z.lor (_BV (WGM20 io)) (_BV (WGM21 io))) 0;
    (* 4: Reserved *)
    row 0 (_BV (WGM22 io));
    (* 5: PWM, Phase-correct, top = OCR2A *)
    row (_BV (WGM20 io)) (_BV (WGM22 io));
    (* 6: Reserved *)
    row (_BV (WGM21 io)) (_BV (WGM22 io));
    (* 7: Fast PWM, top = OCR2A *)
    row (Z.lor (_BV (WGM20 io)) (_BV (WGM21 io))) (_BV (WGM22 io))
  ].

(** Activation *)
Definition clock_enum : list (string * Z) :=
  enum_values
    [ ("NO_CLOCK", None); ("PRESCALE_1", None); ("PRESCALE_8", None);
      ("PRESCALE_32", None); ("PRESCALE_64", None); ("PRESCALE_128", None);
      ("PRESCALE_256", None); ("PRESCALE_1024", None) ].

(** What ports to toggle on timer fire *)
Definition port_enum : list (string * Z) :=
  enum_values
    [ ("NO_PORT", Some 0);
      ("TOGGLE_A_ON_COMPARE", Some (_BV (COM2A0 io)));
      ("CLEAR_A_ON_COMPARE", Some (_BV (COM2A1 io)));
      ("SET_A_ON_COMPARE", Some (Z.lor (_BV (COM2A0 io)) (_BV (COM2A1 io))));
      ("TOGGLE_B_ON_COMPARE", Some (_BV (COM2B0 io)));
      ("CLEAR_B_ON_COMPARE", Some (_BV (COM2B1 io)));
      ("SET_B_ON_COMPARE", Some (Z.lor (_BV (COM2B0 io)) (_BV (COM2B1 io)))) ].

(** The sanity check of [setMode]. *)
Definition out_of_range (mode : Z) : bool := (mode <? 0) || (mode >? 7).

(** Choose a timer mode, set which clock speed, and which port to toggle.
    The three parameters are [const byte]: they hold values in 0..255. *)
Definition setMode (mode clock port : Z) : M unit :=
  if out_of_range mode then ret tt
  else
    (* reset existing flags *)
    write TCCR2A 0 ;;
    write TCCR2B 0 ;;
    m0 <- load Modes mode 0 ;;
    or_assign TCCR2A (Z.lor m0 port) ;;
    m1 <- load Modes mode 1 ;;
    or_assign TCCR2B (Z.lor m1 clock).
End WithIo.
End Timer2.

(* ================================================================= *)
(** ** The three timers side by side *)

Inductive timer : Set := T0 | T1 | T2.

Definition Modes (io : IoDefs) (t : timer) : list (list Z) :=
  match t with
  | T0 => Timer0.Modes io
  | T1 => Timer1.Modes io
  | T2 => Timer2.Modes io
  end.

(** The declared first dimension of [Modes]. *)
Definition table_size (t : timer) : Z :=
  match t with
  | T0 => 8
  | T1 => 16
  | T2 => 8
  end.

Definition out_of_range (t : timer) : Z -> bool :=
  match t with
  | T0 => Timer0.out_of_range
  | T1 => Timer1.out_of_range
  | T2 => Timer2.out_of_range
  end.

Definition clock_enum (t : timer) : list (string * Z) :=
  match t with
  | T0 => Timer0.clock_enum
  | T1 => Timer1.clock_enum
  | T2 => Timer2.clock_enum
  end.

Definition port_enum (io : IoDefs) (t : timer) : list (string * Z) :=
  match t with
  | T0 => Timer0.port_enum io
  | T1 => Timer1.port_enum io
  | T2 => Timer2.port_enum io
  end.

Definition setMode (io : IoDefs) (t : timer) : Z -> Z -> Z -> M unit :=
  match t with
  | T0 => Timer0.setMode io
  | T1 => Timer1.setMode io
  | T2 => Timer2.setMode io
  end.

(** Control register A and control register B of a timer. *)
Definition ctlA (t : timer) : reg :=
  match t with T0 => TCCR0A | T1 => TCCR1A | T2 => TCCR2A end.

Definition ctlB (t : timer) : reg :=
  match t with T0 => TCCR0B | T1 => TCCR1B | T2 => TCCR2B end.


(* ================================================================= *)
(** ** Vocabulary of the properties *)

(** The register file after a call that passes the sanity check. *)
Definition configured (t : timer) (fa fb clock port : Z) (s : Regs) : Regs :=
  set (ctlB t) (to_byte (Z.lor fb clock))
    (set (ctlA t) (to_byte (Z.lor fa port)) s).

(** Two calls in a row. *)
Definition twice {A} (m : M A) : M A := m ;; m.

(** The number of bits set in a byte. *)
Definition popcount8 (z : Z) : nat :=
  List.length (filter (Z.testbit z) [0; 1; 2; 3; 4; 5; 6; 7]).

(** The OR of several constants. *)
Definition or_of (l : list Z) : Z := fold_right Z.lor 0 l.

(** [v] is the value of one of the enumerators of [e]. *)
Definition named (e : list (string * Z)) (v : Z) : Prop := In v (map snd e).

(** Bit [k] of the mode number, moved to bit [pos] of a register. *)
Definition wgm_bit (m k pos : Z) : Z := if Z.testbit m k then _BV pos else 0.

(** The mode number [m] of timer 1 laid out as the data sheet does:
    bits 0 and 1 of [m] are WGM10 and WGM11 in TCCR1A, bits 2 and 3
    are WGM12 and WGM13 in TCCR1B. *)
Definition wgm1_A (io : IoDefs) (m : Z) : Z :=
  to_byte (Z.lor (wgm_bit m 0 (WGM10 io)) (wgm_bit m 1 (WGM11 io))).

Definition wgm1_B (io : IoDefs) (m : Z) : Z :=
  to_byte (Z.lor (wgm_bit m 2 (WGM12 io)) (wgm_bit m 3 (WGM13 io))).

(** Kinds of clock enumerators, told by their names. *)
Definition ends_with (suffix s : string) : bool :=
  let n := String.length s in
  let k := String.length suffix in
  (k <=? n)%nat && String.eqb (substring (n - k) k s) suffix.

Definition is_prescale (name : string) : bool := String.prefix "PRESCALE_" name.

Definition is_external_edge (name : string) : bool :=
  ends_with "_FALLING" name || ends_with "_RISING" name.

(** The number that follows [PRESCALE_] in the name of a prescale
    constant: the ratio of the prescaler. *)
Definition digit_of (c : ascii) : option Z :=
  let n := Z.of_nat (nat_of_ascii c) in
  if (48 <=? n) && (n <=? 57) then Some (n - 48) else None.

Fixpoint parse_dec_from (acc : Z) (s : string) : option Z :=
  match s with
  | EmptyString => Some acc
  | String c s' =>
      match digit_of c with
      | Some d => parse_dec_from (10 * acc + d) s'
      | None => None
      end
  end.

Definition prescale_ratio (name : string) : option Z :=
  if is_prescale name
  then match substring 9 (String.length name - 9) name with
       | EmptyString => None
       | digits => parse_dec_from 0 digits
       end
  else None.

(** The prescale constants of an enumeration, each as the ratio in its
    name and its value, in the order of the declaration. *)
Definition prescale_table (e : list (string * Z)) : list (option Z * Z) :=
  map (fun nv => (prescale_ratio (fst nv), snd nv))
      (filter (fun nv => is_prescale (fst nv)) e).

Definition prescale_values (e : list (string * Z)) : list Z :=
  map snd (filter (fun nv => is_prescale (fst nv)) e).

Definition external_edges (e : list (string * Z)) : list (string * Z) :=
  filter (fun nv => is_external_edge (fst nv)) e.

Fixpoint ascending (l : list Z) : bool :=
  match l with
  | x :: (y :: _) as l' => (x <? y) && ascending l'
  | _ => true
  end.

(** The header's bit numbers, by register. *)
Definition wgm_A (io : IoDefs) (t : timer) : list Z :=
  match t with
  | T0 => [WGM00 io; WGM01 io]
  | T1 => [WGM10 io; WGM11 io]
  | T2 => [WGM20 io; WGM21 io]
  end.

Definition wgm_B (io : IoDefs) (t : timer) : list Z :=
  match t with
  | T0 => [WGM02 io]
  | T1 => [WGM12 io; WGM13 io]
  | T2 => [WGM22 io]
  end.

Definition com_A (io : IoDefs) (t : timer) : list Z :=
  match t with
  | T0 => [COM0A0 io; COM0A1 io; COM0B0 io; COM0B1 io]
  | T1 => [COM1A0 io; COM1A1 io; COM1B0 io; COM1B1 io]
  | T2 => [COM2A0 io; COM2A1 io; COM2B0 io; COM2B1 io]
  end.

(** [x] has no bit set outside the positions [ks]. *)
Definition bits_in (x : Z) (ks : list Z) : Prop :=
  forall i, Z.testbit x i = true -> In i ks.

Definition mem (x : Z) (l : list Z) : bool := existsb (Z.eqb x) l.

(** The register layout that keeps the fields apart: in register A no
    WGM bit is a COM bit and the COM bits are bits of a byte; in
    register B the WGM bits lie above the three clock select bits. *)
Definition layout_ok (io : IoDefs) (t : timer) : bool :=
  forallb (fun w => negb (mem w (com_A io t))) (wgm_A io t)
  && forallb (fun c => c <? 8) (com_A io t)
  && forallb (fun w => 3 <=? w) (wgm_B io t).

(** The width of the counter: in Normal mode the top is 0xFF for
    timers 0 and 2 and 0xFFFF for timer 1. *)
Definition counter_width (t : timer) : Z :=
  match t with
  | T0 => 8
  | T1 => 16
  | T2 => 8
  end.

Definition has_external_edges (t : timer) : bool :=
  match external_edges (clock_enum t) with
  | [] => false
  | _ :: _ => true
  end.


(** A call and then another call. *)
Definition and_then {A B} (m : M A) (k : M B) : M B := m ;; k.

(** The mode number [m] laid out on the WGM bits of each timer: bits 0
    and 1 of [m] in register A, bit 2 (and for timer 1 bit 3) in
    register B. *)
Definition mode_A (io : IoDefs) (t : timer) (m : Z) : Z :=
  match t with
  | T0 => to_byte (Z.lor (wgm_bit m 0 (WGM00 io)) (wgm_bit m 1 (WGM01 io)))
  | T1 => wgm1_A io m
  | T2 => to_byte (Z.lor (wgm_bit m 0 (WGM20 io)) (wgm_bit m 1 (WGM21 io)))
  end.

Definition mode_B (io : IoDefs) (t : timer) (m : Z) : Z :=
  match t with
  | T0 => to_byte (wgm_bit m 2 (WGM02 io))
  | T1 => wgm1_B io m
  | T2 => to_byte (wgm_bit m 2 (WGM22 io))
  end.

(** The bits of the mode number, lowest first. *)
Definition mode_bits (t : timer) (m : Z) : list bool :=
  map (Z.testbit m) (match t with T1 => [0; 1; 2; 3] | _ => [0; 1; 2] end).

(** The WGM bits as the hardware finds them in the two registers. *)
Definition wgm_field (io : IoDefs) (t : timer) (s : Regs) : list bool :=
  map (Z.testbit (get (ctlA t) s)) (wgm_A io t)
  ++ map (Z.testbit (get (ctlB t) s)) (wgm_B io t).

Fixpoint distinct (l : list Z) : bool :=
  match l with
  | [] => true
  | x :: l' => negb (mem x l') && distinct l'
  end.

(** The WGM bits of a register are separate bits of a byte. *)
Definition wgm_readable (io : IoDefs) (t : timer) : bool :=
  distinct (wgm_A io t) && distinct (wgm_B io t)
  && forallb (fun w => (0 <=? w) && (w <? 8)) (wgm_A io t ++ wgm_B io t).

(** All COM bits of register A together. *)
Definition com_mask (io : IoDefs) (t : timer) : Z :=
  or_of (map _BV (com_A io t)).


(* ================================================================= *)
(** * Properties *)

(* ================================================================= *)
(** ** Bits of bytes *)

Section Bits.

Lemma to_byte_is_byte (z : Z) : is_byte (to_byte z).
Proof. unfold is_byte, to_byte. apply Z.mod_pos_bound. lia. Qed.

Lemma to_byte_id (z : Z) : is_byte z -> to_byte z = z.
Proof. unfold is_byte, to_byte. intros H. now apply Z.mod_small. Qed.

Lemma testbit_to_byte (z i : Z) :
  Z.testbit (to_byte z) i = (i <? 8) && Z.testbit z i.
Proof.
  unfold to_byte. change 256 with (2 ^ 8).
  apply Z.testbit_mod_pow2. lia.
Qed.

Lemma testbit_BV (k i : Z) :
  Z.testbit (_BV k) i = (0 <=? i) && (i =? k).
Proof.
  unfold _BV. destruct (Z.leb_spec 0 i) as [Hi | Hi]; cbn [andb].
  - rewrite Z.shiftl_spec by assumption.
    change 1 with (2 ^ 0). rewrite Z.pow2_bits_eqb by lia.
    destruct (Z.eqb_spec 0 (i - k)), (Z.eqb_spec i k); trivial; lia.
  - now apply Z.testbit_neg_r.
Qed.

Lemma is_byte_bits (z : Z) :
  is_byte z <-> 0 <= z /\ forall i, 8 <= i -> Z.testbit z i = false.
Proof.
  split.
  - intros H. split; [apply H |]. intros i Hi.
    rewrite <- (to_byte_id z H), testbit_to_byte.
    destruct (Z.ltb_spec i 8); [lia | reflexivity].
  - intros [H0 Hhi].
    assert (E : to_byte z = z); [| rewrite <- E; apply to_byte_is_byte].
    apply Z.bits_inj'. intros i Hi. rewrite testbit_to_byte.
    destruct (Z.ltb_spec i 8); cbn [andb]; [reflexivity |].
    symmetry. now apply Hhi.
Qed.

Lemma lor_is_byte (a b : Z) : is_byte a -> is_byte b -> is_byte (Z.lor a b).
Proof.
  rewrite !is_byte_bits. intros [Ha Ha'] [Hb Hb']. split.
  - now apply Z.lor_nonneg.
  - intros i Hi. now rewrite Z.lor_spec, Ha', Hb'.
Qed.

End Bits.

(* ================================================================= *)
(** ** Which bits the constants occupy *)

Section FieldBits.

Lemma bits_in_0 (ks : list Z) : bits_in 0 ks.
Proof. intros i H. now rewrite Z.bits_0 in H. Qed.

Lemma bits_in_BV (k : Z) (ks : list Z) : In k ks -> bits_in (_BV k) ks.
Proof.
  intros Hk i H. rewrite testbit_BV in H.
  apply andb_prop in H as [_ H]. apply Z.eqb_eq in H. now subst i.
Qed.

Lemma bits_in_lor (a b : Z) (ks : list Z) :
  bits_in a ks -> bits_in b ks -> bits_in (Z.lor a b) ks.
Proof.
  intros Ha Hb i H. rewrite Z.lor_spec in H.
  apply orb_prop in H as [H | H]; auto.
Qed.

Lemma bits_in_to_byte (a : Z) (ks : list Z) :
  bits_in a ks -> bits_in (to_byte a) ks.
Proof.
  intros Ha i H. rewrite testbit_to_byte in H.
  apply andb_prop in H as [_ H]. auto.
Qed.

Lemma bits_in_small (c : Z) : 0 <= c < 8 -> bits_in c [0; 1; 2].
Proof.
  intros Hc i H.
  assert (Hi : 0 <= i).
  { destruct (Z.leb_spec 0 i); [assumption |].
    rewrite Z.testbit_neg_r in H by assumption. discriminate. }
  assert (E : c mod 2 ^ 3 = c) by (apply Z.mod_small; cbn; lia).
  rewrite <- E, Z.testbit_mod_pow2 in H by lia.
  apply andb_prop in H as [H _]. apply Z.ltb_lt in H.
  cbn. lia.
Qed.

(** Two constants on separate positions have no common bit. *)
Lemma land_apart (a b : Z) (ka kb : list Z) :
  bits_in a ka -> bits_in b kb ->
  (forall k, In k ka -> In k kb -> False) ->
  Z.land a b = 0.
Proof.
  intros Ha Hb Hsep. apply Z.bits_inj'. intros i _.
  rewrite Z.land_spec, Z.bits_0.
  destruct (Z.testbit a i) eqn:Ea, (Z.testbit b i) eqn:Eb; trivial.
  exfalso. eauto.
Qed.

(** The OR of two such constants determines both. *)
Lemma lor_apart_inj (a a' b b' : Z) (ka kb : list Z) :
  bits_in a ka -> bits_in a' ka -> bits_in b kb -> bits_in b' kb ->
  (forall k, In k ka -> In k kb -> False) ->
  Z.lor a b = Z.lor a' b' -> a = a' /\ b = b'.
Proof.
  intros Ha Ha' Hb Hb' Hsep E.
  assert (Ebit : forall i, Z.testbit a i || Z.testbit b i
                           = Z.testbit a' i || Z.testbit b' i).
  { intros i. now rewrite <- !Z.lor_spec, E. }
  split; apply Z.bits_inj'; intros i _; specialize (Ebit i);
    destruct (Z.testbit a i) eqn:E1, (Z.testbit a' i) eqn:E2,
             (Z.testbit b i) eqn:E3, (Z.testbit b' i) eqn:E4;
    try reflexivity; try discriminate Ebit; exfalso; eauto.
Qed.

Lemma lor_apart_add (a b : Z) : Z.land a b = 0 -> Z.lor a b = a + b.
Proof.
  intros H. now rewrite <- (Z.lxor_lor a b H), (Z.add_nocarry_lxor a b H).
Qed.

Lemma popcount8_le (x : Z) (ks : list Z) :
  bits_in x ks -> (popcount8 x <= List.length ks)%nat.
Proof.
  intros Hx. unfold popcount8. apply NoDup_incl_length.
  - apply NoDup_filter.
    repeat (constructor; [cbn; lia |]). constructor.
  - intros i Hi. apply filter_In in Hi as [_ Hi]. now apply Hx.
Qed.

Lemma bits_in_wgm_bit (m k pos : Z) (ks : list Z) :
  In pos ks -> bits_in (wgm_bit m k pos) ks.
Proof.
  intros H. unfold wgm_bit.
  destruct (Z.testbit m k); [now apply bits_in_BV | apply bits_in_0].
Qed.

End FieldBits.

Create HintDb bits.
#[local] Hint Resolve bits_in_0 bits_in_BV bits_in_lor bits_in_to_byte
  bits_in_wgm_bit to_byte_is_byte : bits.
#[local] Hint Extern 1 (In _ _) => (cbn; auto) : bits.

(* ================================================================= *)
(** ** Arrays and the mode tables *)

Section Tables.

Lemma index_Some {A} (a : list A) (i : Z) :
  0 <= i < Z.of_nat (List.length a) -> exists x, index a i = Some x /\ In x a.
Proof.
  intros Hi. unfold index.
  destruct (Z.ltb_spec i 0) as [? | _]; [lia |].
  destruct (nth_error a (Z.to_nat i)) as [x |] eqn:E.
  - exists x. split; [reflexivity |]. eapply nth_error_In, E.
  - apply nth_error_None in E. lia.
Qed.

Lemma index_None {A} (a : list A) (i : Z) :
  ~ 0 <= i < Z.of_nat (List.length a) -> index a i = None.
Proof.
  intros Hi. unfold index.
  destruct (Z.ltb_spec i 0); [reflexivity |].
  apply nth_error_None. lia.
Qed.

Variable io : IoDefs.

Lemma table_length (t : timer) :
  Z.of_nat (List.length (Modes io t)) = table_size t.
Proof. destruct t; reflexivity. Qed.

(** Every row of a table holds two bytes, the first made of the WGM bits
    of register A and the second of those of register B. *)
Lemma table_rows_bits (t : timer) :
  Forall (fun r => exists a b,
              r = [a; b] /\ is_byte a /\ is_byte b /\
              bits_in a (wgm_A io t) /\ bits_in b (wgm_B io t))
         (Modes io t).
Proof.
  destruct t; cbv [Modes Timer0.Modes Timer1.Modes Timer2.Modes row];
    repeat (constructor;
            [do 2 eexists; split; [reflexivity |];
             split; [| split; [| split]]; auto 6 with bits |]);
    constructor.
Qed.

Lemma entry_row (T : list (list Z)) (i : Z) (r : list Z) (j : Z) :
  index T i = Some r -> entry T i j = index r j.
Proof. unfold entry. now intros ->. Qed.

Lemma entry_in_range (t : timer) (m : Z) :
  0 <= m < table_size t ->
  exists fa fb,
    entry (Modes io t) m 0 = Some fa /\ entry (Modes io t) m 1 = Some fb
    /\ is_byte fa /\ is_byte fb.
Proof.
  intros Hm. rewrite <- table_length in Hm.
  destruct (index_Some _ _ Hm) as (r & Hr & Hin).
  pose proof (table_rows_bits t) as Hrows. rewrite Forall_forall in Hrows.
  destruct (Hrows r Hin) as (a & b & -> & Ba & Bb & _).
  exists a, b. rewrite !(entry_row _ _ _ _ Hr).
  split; [reflexivity | split; [reflexivity | split; assumption]].
Qed.

Lemma entry_out_of_range (t : timer) (m j : Z) :
  ~ 0 <= m < table_size t -> entry (Modes io t) m j = None.
Proof.
  intros Hm. rewrite <- table_length in Hm.
  unfold entry. now rewrite (index_None _ _ Hm).
Qed.

Lemma entry_bits (t : timer) (m fa fb : Z) :
  entry (Modes io t) m 0 = Some fa ->
  entry (Modes io t) m 1 = Some fb ->
  0 <= m < table_size t /\ is_byte fa /\ is_byte fb /\
  bits_in fa (wgm_A io t) /\ bits_in fb (wgm_B io t).
Proof.
  intros Ha Hb.
  assert (Hm : 0 <= m < table_size t).
  { destruct (Z.le_gt_cases 0 m), (Z.lt_ge_cases m (table_size t));
      try (split; assumption);
      rewrite entry_out_of_range in Ha by lia; discriminate. }
  split; [exact Hm |].
  rewrite <- table_length in Hm.
  destruct (index_Some _ _ Hm) as (r & Hr & Hin).
  pose proof (table_rows_bits t) as Hrows. rewrite Forall_forall in Hrows.
  destruct (Hrows r Hin) as (a & b & -> & Hrow).
  rewrite (entry_row _ _ _ 0 Hr) in Ha.
  rewrite (entry_row _ _ _ 1 Hr) in Hb.
  cbn in Ha, Hb. injection Ha as <-. injection Hb as <-. exact Hrow.
Qed.

Lemma out_of_range_false (t : timer) (mode : Z) :
  out_of_range t mode = false <-> 0 <= mode < table_size t.
Proof.
  destruct t; cbn;
    cbv [Timer0.out_of_range Timer1.out_of_range Timer2.out_of_range];
    rewrite orb_false_iff, Z.ltb_ge, Z.gtb_ltb, Z.ltb_ge; lia.
Qed.

Lemma out_of_range_true (t : timer) (mode : Z) :
  out_of_range t mode = true <-> ~ 0 <= mode < table_size t.
Proof.
  rewrite <- out_of_range_false. destruct (out_of_range t mode); split;
    congruence.
Qed.

End Tables.

(* ================================================================= *)
(** ** What [setMode] computes *)

Section Running.

Variable io : IoDefs.

Lemma setMode_unfold (t : timer) (mode clock port : Z) :
  setMode io t mode clock port =
  if out_of_range t mode then ret tt
  else
    write (ctlA t) 0 ;;
    write (ctlB t) 0 ;;
    m0 <- load (Modes io t) mode 0 ;;
    or_assign (ctlA t) (Z.lor m0 port) ;;
    m1 <- load (Modes io t) mode 1 ;;
    or_assign (ctlB t) (Z.lor m1 clock).
Proof. destruct t; reflexivity. Qed.

Lemma setMode_rejected (t : timer) (mode clock port : Z) (s : Regs) :
  ~ 0 <= mode < table_size t ->
  setMode io t mode clock port s = Some (tt, s).
Proof.
  intros Hm. apply out_of_range_true in Hm.
  now rewrite setMode_unfold, Hm.
Qed.

Lemma setMode_accepted (t : timer) (mode clock port fa fb : Z) (s : Regs) :
  0 <= mode < table_size t ->
  entry (Modes io t) mode 0 = Some fa ->
  entry (Modes io t) mode 1 = Some fb ->
  setMode io t mode clock port s
  = Some (tt, configured t fa fb clock port s).
Proof.
  intros Hm Ha Hb. apply out_of_range_false in Hm.
  rewrite setMode_unfold, Hm.
  unfold bind, write, load, or_assign, bind, read, write, configured.
  rewrite Ha, Hb.
  destruct t; cbn [ctlA ctlB get set tccr0a tccr0b tccr1a tccr1b tccr2a tccr2b];
    change (to_byte 0) with 0; rewrite !Z.lor_0_l; reflexivity.
Qed.

End Running.

Section Registers.

Lemma get_configured_A (t : timer) (fa fb clock port : Z) (s : Regs) :
  get (ctlA t) (configured t fa fb clock port s) = to_byte (Z.lor fa port).
Proof. destruct t; reflexivity. Qed.

Lemma get_configured_B (t : timer) (fa fb clock port : Z) (s : Regs) :
  get (ctlB t) (configured t fa fb clock port s) = to_byte (Z.lor fb clock).
Proof. destruct t; reflexivity. Qed.

Lemma get_configured_other (t : timer) (fa fb clock port : Z) (s : Regs) (r : reg) :
  reg_eqb r (ctlA t) = false -> reg_eqb r (ctlB t) = false ->
  get r (configured t fa fb clock port s) = get r s.
Proof. destruct t, r; cbn; congruence. Qed.

Lemma configured_twice (t : timer) (fa fb clock port : Z) (s : Regs) :
  configured t fa fb clock port (configured t fa fb clock port s)
  = configured t fa fb clock port s.
Proof. destruct t; reflexivity. Qed.

Lemma lor_byte (a b : Z) : is_byte a -> is_byte b -> to_byte (Z.lor a b) = Z.lor a b.
Proof. intros Ha Hb. now apply to_byte_id, lor_is_byte. Qed.

End Registers.

(* ================================================================= *)
(** ** The configuration operation *)

(** C1.  For each of the three timers, a mode index [m] inside the table
    and any bytes [clock] and [port]: [setMode] returns, and leaves
    control register A equal to [Modes[m][0] | port] and control
    register B equal to [Modes[m][1] | clock]. *)
Theorem setMode_sets_both_registers
  (io : IoDefs) (t : timer) (m clock port : Z) (s : Regs) :
  0 <= m < table_size t -> is_byte clock -> is_byte port ->
  exists fa fb s',
    entry (Modes io t) m 0 = Some fa /\
    entry (Modes io t) m 1 = Some fb /\
    setMode io t m clock port s = Some (tt, s') /\
    get (ctlA t) s' = Z.lor fa port /\
    get (ctlB t) s' = Z.lor fb clock.
Proof.
  intros Hm Hc Hp.
  destruct (entry_in_range io t m Hm) as (fa & fb & Ha & Hb & Bfa & Bfb).
  exists fa, fb, (configured t fa fb clock port s).
  repeat split; try assumption.
  - now apply setMode_accepted.
  - rewrite get_configured_A. now apply lor_byte.
  - rewrite get_configured_B. now apply lor_byte.
Qed.

Lemma setMode_sets_both_registers_witness :
  (0 <= 4 < table_size T1 /\ is_byte 1 /\ is_byte 128) /\
  exists fa fb s',
    entry (Modes atmega328p T1) 4 0 = Some fa /\
    entry (Modes atmega328p T1) 4 1 = Some fb /\
    setMode atmega328p T1 4 1 128 (mkRegs 255 255 255 255 255 255)
    = Some (tt, s') /\
    get (ctlA T1) s' = Z.lor fa 128 /\
    get (ctlB T1) s' = Z.lor fb 1.
Proof.
  assert (H : 0 <= 4 < table_size T1 /\ is_byte 1 /\ is_byte 128)
    by (unfold is_byte; cbn; lia).
  split; [exact H |].
  apply (setMode_sets_both_registers atmega328p T1 4 1 128); apply H.
Defined.

(** C2.  For each timer and a byte [mode] outside the table, in N..255,
    [setMode] returns normally, with no result, and the register file
    is the one it was called with. *)
Theorem setMode_out_of_range_is_noop
  (io : IoDefs) (t : timer) (mode clock port : Z) (s : Regs) :
  is_byte mode ->
  ~ 0 <= mode < table_size t ->
  setMode io t mode clock port s = Some (tt, s).
Proof. intros _. apply setMode_rejected. Qed.

Lemma setMode_out_of_range_is_noop_witness :
  (is_byte 8 /\ ~ 0 <= 8 < table_size T0) /\
  setMode atmega328p T0 8 3 64 (mkRegs 1 2 3 4 5 6)
  = Some (tt, mkRegs 1 2 3 4 5 6).
Proof.
  assert (H1 : is_byte 8) by (unfold is_byte; lia).
  assert (H2 : ~ 0 <= 8 < table_size T0) by (cbn; lia).
  split; [exact (conj H1 H2) |].
  exact (setMode_out_of_range_is_noop atmega328p T0 8 3 64 _ H1 H2).
Defined.

(** C3.  For a mode index inside the table, the two control registers
    after [setMode] do not depend on the register file before it: from
    any two register files the call ends with the same control
    registers. *)
Theorem setMode_forgets_prior_registers
  (io : IoDefs) (t : timer) (m clock port : Z) (s1 s2 : Regs) :
  0 <= m < table_size t ->
  exists s1' s2',
    setMode io t m clock port s1 = Some (tt, s1') /\
    setMode io t m clock port s2 = Some (tt, s2') /\
    get (ctlA t) s1' = get (ctlA t) s2' /\
    get (ctlB t) s1' = get (ctlB t) s2'.
Proof.
  intros Hm.
  destruct (entry_in_range io t m Hm) as (fa & fb & Ha & Hb & _).
  exists (configured t fa fb clock port s1), (configured t fa fb clock port s2).
  rewrite !get_configured_A, !get_configured_B.
  repeat split; now apply setMode_accepted.
Qed.

Lemma setMode_forgets_prior_registers_witness :
  0 <= 7 < table_size T2 /\
  exists s1' s2',
    setMode atmega328p T2 7 5 192 (mkRegs 0 0 0 0 0 0) = Some (tt, s1') /\
    setMode atmega328p T2 7 5 192 (mkRegs 255 255 255 255 255 255)
    = Some (tt, s2') /\
    get (ctlA T2) s1' = get (ctlA T2) s2' /\
    get (ctlB T2) s1' = get (ctlB T2) s2'.
Proof.
  assert (H : 0 <= 7 < table_size T2) by (cbn; lia).
  split; [exact H |].
  apply (setMode_forgets_prior_registers atmega328p T2 7 5 192); exact H.
Defined.

(** C4.  For each timer and any arguments, in or out of range, calling
    [setMode] twice in a row with them leaves the register file as one
    call does. *)
Theorem setMode_idempotent
  (io : IoDefs) (t : timer) (mode clock port : Z) (s : Regs) :
  twice (setMode io t mode clock port) s = setMode io t mode clock port s.
Proof.
  unfold twice, bind.
  destruct (out_of_range t mode) eqn:E.
  - apply out_of_range_true in E.
    now rewrite !(setMode_rejected io t mode clock port _ E).
  - apply out_of_range_false in E.
    destruct (entry_in_range io t mode E) as (fa & fb & Ha & Hb & _).
    rewrite !(setMode_accepted io t mode clock port fa fb _ E Ha Hb).
    now rewrite configured_twice.
Qed.

Lemma land_lor_keeps (a b : Z) : Z.land (Z.lor a b) b = b.
Proof.
  apply Z.bits_inj'. intros i _.
  rewrite Z.land_spec, Z.lor_spec.
  destruct (Z.testbit a i), (Z.testbit b i); reflexivity.
Qed.

Lemma land_lor_keeps_part (a b c : Z) : Z.land (Z.lor a (Z.lor b c)) b = b.
Proof.
  apply Z.bits_inj'. intros i _.
  rewrite Z.land_spec, !Z.lor_spec.
  destruct (Z.testbit a i), (Z.testbit b i), (Z.testbit c i); reflexivity.
Qed.

(** C5.  For a mode index inside the table, [setMode] takes any byte as
    [clock] and any byte as [port]: the call returns, every bit of
    register A is the OR of that bit of [Modes[m][0]] and of [port],
    every bit of register B the OR of that bit of [Modes[m][1]] and
    of [clock], so all bits of [port] and of [clock] are in the
    registers; with [TOGGLE_A_ON_COMPARE | SET_B_ON_COMPARE] as [port],
    register A holds both constants next to the mode bits. *)
Theorem setMode_passes_clock_and_port_through
  (io : IoDefs) (t : timer) (m clock port : Z) (s : Regs) :
  0 <= m < table_size t -> is_byte clock -> is_byte port ->
  exists fa fb s',
    entry (Modes io t) m 0 = Some fa /\
    entry (Modes io t) m 1 = Some fb /\
    setMode io t m clock port s = Some (tt, s') /\
    (forall i, Z.testbit (get (ctlA t) s') i
               = Z.testbit fa i || Z.testbit port i) /\
    (forall i, Z.testbit (get (ctlB t) s') i
               = Z.testbit fb i || Z.testbit clock i) /\
    Z.land (get (ctlA t) s') port = port /\
    Z.land (get (ctlB t) s') clock = clock /\
    (forall ta sb,
        enum_const (port_enum io t) "TOGGLE_A_ON_COMPARE" = Some ta ->
        enum_const (port_enum io t) "SET_B_ON_COMPARE" = Some sb ->
        port = Z.lor ta sb ->
        get (ctlA t) s' = Z.lor fa (Z.lor ta sb) /\
        Z.land (get (ctlA t) s') ta = ta /\
        Z.land (get (ctlA t) s') sb = sb).
Proof.
  intros Hm Hc Hp.
  destruct (entry_in_range io t m Hm) as (fa & fb & Ha & Hb & Bfa & Bfb).
  exists fa, fb, (configured t fa fb clock port s).
  rewrite get_configured_A, get_configured_B, !lor_byte by assumption.
  repeat match goal with |- _ /\ _ => split end; try assumption.
  - now apply setMode_accepted.
  - intros i. apply Z.lor_spec.
  - intros i. apply Z.lor_spec.
  - apply land_lor_keeps.
  - apply land_lor_keeps.
  - intros ta sb _ _ ->. repeat split.
    + apply land_lor_keeps_part.
    + rewrite (Z.lor_comm ta sb). apply land_lor_keeps_part.
Qed.

Lemma setMode_passes_clock_and_port_through_witness :
  (0 <= 3 < table_size T0 /\ is_byte 9 /\ is_byte 112) /\
  exists fa fb s',
    entry (Modes atmega328p T0) 3 0 = Some fa /\
    entry (Modes atmega328p T0) 3 1 = Some fb /\
    setMode atmega328p T0 3 9 112 (mkRegs 0 0 0 0 0 0) = Some (tt, s') /\
    (forall i, Z.testbit (get (ctlA T0) s') i
               = Z.testbit fa i || Z.testbit 112 i) /\
    (forall i, Z.testbit (get (ctlB T0) s') i
               = Z.testbit fb i || Z.testbit 9 i) /\
    Z.land (get (ctlA T0) s') 112 = 112 /\
    Z.land (get (ctlB T0) s') 9 = 9 /\
    (forall ta sb,
        enum_const (port_enum atmega328p T0) "TOGGLE_A_ON_COMPARE" = Some ta ->
        enum_const (port_enum atmega328p T0) "SET_B_ON_COMPARE" = Some sb ->
        112 = Z.lor ta sb ->
        get (ctlA T0) s' = Z.lor fa (Z.lor ta sb) /\
        Z.land (get (ctlA T0) s') ta = ta /\
        Z.land (get (ctlA T0) s') sb = sb).
Proof.
  assert (H : 0 <= 3 < table_size T0 /\ is_byte 9 /\ is_byte 112)
    by (unfold is_byte; cbn; lia).
  split; [exact H |].
  apply (setMode_passes_clock_and_port_through atmega328p T0 3 9 112);
    apply H.
Defined.

(** C8.  In each timer's [setMode] the table is read only behind the
    sanity check: for a byte [mode] the check is [mode < N] with [N]
    the length of the table, the call never reads outside the table
    (it always returns), a [mode] that passes the check lies in
    [0, N) and both of its table entries exist, and a [mode] that the
    check turns away has none. *)
Theorem setMode_reads_inside_table
  (io : IoDefs) (t : timer) (mode clock port : Z) (s : Regs) :
  is_byte mode ->
  out_of_range t mode = negb (mode <? table_size t) /\
  table_size t = Z.of_nat (List.length (Modes io t)) /\
  (exists s', setMode io t mode clock port s = Some (tt, s')) /\
  (out_of_range t mode = false ->
   0 <= mode < table_size t /\
   exists fa fb, entry (Modes io t) mode 0 = Some fa /\
                 entry (Modes io t) mode 1 = Some fb) /\
  (out_of_range t mode = true ->
   forall j, entry (Modes io t) mode j = None).
Proof.
  intros Hbyte. repeat match goal with |- _ /\ _ => split end.
  - destruct (Z.ltb_spec mode (table_size t)) as [Hlt | Hge]; cbn [negb].
    + apply out_of_range_false. unfold is_byte in Hbyte. lia.
    + apply out_of_range_true. lia.
  - symmetry. apply table_length.
  - destruct (out_of_range t mode) eqn:E.
    + apply out_of_range_true in E. exists s. now apply setMode_rejected.
    + apply out_of_range_false in E.
      destruct (entry_in_range io t mode E) as (fa & fb & Ha & Hb & _).
      eexists. now apply setMode_accepted with (fa := fa) (fb := fb).
  - intros E. apply out_of_range_false in E. split; [exact E |].
    destruct (entry_in_range io t mode E) as (fa & fb & Ha & Hb & _).
    now exists fa, fb.
  - intros E j. apply out_of_range_true in E. now apply entry_out_of_range.
Qed.

Lemma setMode_reads_inside_table_witness :
  is_byte 255 /\
  (out_of_range T1 255 = negb (255 <? table_size T1) /\
   table_size T1 = Z.of_nat (List.length (Modes atmega328p T1)) /\
   (exists s', setMode atmega328p T1 255 7 0 (mkRegs 9 9 9 9 9 9)
               = Some (tt, s')) /\
   (out_of_range T1 255 = false ->
    0 <= 255 < table_size T1 /\
    exists fa fb, entry (Modes atmega328p T1) 255 0 = Some fa /\
                  entry (Modes atmega328p T1) 255 1 = Some fb) /\
   (out_of_range T1 255 = true ->
    forall j, entry (Modes atmega328p T1) 255 j = None)).
Proof.
  assert (H : is_byte 255) by (unfold is_byte; lia).
  split; [exact H |].
  apply (setMode_reads_inside_table atmega328p T1 255 7 0); exact H.
Defined.

(** C10.  In each timer [NO_CLOCK] and [NO_PORT] are 0, row 0 of the
    table is the pair (0, 0), and [setMode (0, NO_CLOCK, NO_PORT)]
    leaves both control registers of the timer equal to 0. *)
Theorem setMode_zero_clears_registers
  (io : IoDefs) (t : timer) (s : Regs) :
  enum_const (clock_enum t) "NO_CLOCK" = Some 0 /\
  enum_const (port_enum io t) "NO_PORT" = Some 0 /\
  entry (Modes io t) 0 0 = Some 0 /\
  entry (Modes io t) 0 1 = Some 0 /\
  exists s',
    setMode io t 0 0 0 s = Some (tt, s') /\
    get (ctlA t) s' = 0 /\ get (ctlB t) s' = 0.
Proof.
  assert (Ha : entry (Modes io t) 0 0 = Some 0) by (destruct t; reflexivity).
  assert (Hb : entry (Modes io t) 0 1 = Some 0) by (destruct t; reflexivity).
  repeat match goal with |- _ /\ _ => split end; try assumption.
  - destruct t; reflexivity.
  - destruct t; reflexivity.
  - exists (configured t 0 0 0 0 s).
    rewrite get_configured_A, get_configured_B. repeat split.
    apply setMode_accepted; try assumption.
    destruct t; cbn; lia.
Qed.

(* ================================================================= *)
(** ** The clock selector enumerations *)

(** C7, as the sources have it.  In each timer [NO_CLOCK] is 0 and the
    prescale constants, taken by the ratio in their names, ascend with
    the ratio in steps of one from 1: ratios 1, 8, 64, 256, 1024 are
    1 to 5 in timers 0 and 1, and ratios 1, 8, 32, 64, 128, 256, 1024
    are 1 to 7 in timer 2.  All clock constants of a timer are distinct.
    The external clock edge constants exist for timer 0 and timer 1
    (the 16-bit timer), falling edge 6 and rising edge 7, and timer 2
    has none. *)
Theorem clock_enum_values (t : timer) :
  enum_const (clock_enum t) "NO_CLOCK" = Some 0 /\
  prescale_table (clock_enum t)
  = match t with
    | T0 | T1 =>
        [(Some 1, 1); (Some 8, 2); (Some 64, 3); (Some 256, 4);
         (Some 1024, 5)]
    | T2 =>
        [(Some 1, 1); (Some 8, 2); (Some 32, 3); (Some 64, 4);
         (Some 128, 5); (Some 256, 6); (Some 1024, 7)]
    end /\
  ascending (prescale_values (clock_enum t)) = true /\
  forallb (fun v => (1 <=? v) && (v <=? match t with T2 => 7 | _ => 5 end))
          (prescale_values (clock_enum t))
  = true /\
  NoDup (map snd (clock_enum t)) /\
  has_external_edges t = match t with T0 | T1 => true | T2 => false end /\
  external_edges (clock_enum t)
  = match t with
    | T0 => [("T0_FALLING", 6); ("T0_RISING", 7)]
    | T1 => [("T1_FALLING", 6); ("T1_RISING", 7)]
    | T2 => []
    end /\
  map snd (external_edges (clock_enum t))
  = match t with T0 | T1 => [6; 7] | T2 => [] end.
Proof.
  repeat match goal with |- _ /\ _ => split end;
    try (destruct t; reflexivity).
  destruct t; cbn; repeat (constructor; [cbn; lia |]); constructor.
Qed.

(** C7 as worded fails: the 16-bit timer has the two external clock edge
    constants, and the second 8-bit timer has none. *)
Lemma timer1_has_external_clock_edges :
  counter_width T1 = 16 /\
  external_edges (clock_enum T1) = [("T1_FALLING", 6); ("T1_RISING", 7)] /\
  counter_width T2 = 8 /\
  external_edges (clock_enum T2) = [] /\
  ~ (forall t, has_external_edges t = (counter_width t =? 8)).
Proof.
  repeat match goal with |- _ /\ _ => split end; try reflexivity.
  intros H. specialize (H T1). discriminate H.
Qed.

(* ================================================================= *)
(** ** The mode table of timer 1 *)

Section Timer1Table.

Variable io : IoDefs.

(** Row [m] of the table is mode number [m] in the data sheet's layout:
    the rows are in the order of the mode numbers, the reserved one
    included. *)
Lemma timer1_row (m : Z) :
  0 <= m < 16 ->
  index (Timer1.Modes io) m = Some [wgm1_A io m; wgm1_B io m].
Proof.
  intros Hm.
  assert (Hcases : m = 0 \/ m = 1 \/ m = 2 \/ m = 3 \/ m = 4 \/ m = 5
                   \/ m = 6 \/ m = 7 \/ m = 8 \/ m = 9 \/ m = 10 \/ m = 11
                   \/ m = 12 \/ m = 13 \/ m = 14 \/ m = 15) by lia.
  unfold wgm1_A, wgm1_B, wgm_bit.
  repeat (destruct Hcases as [-> | Hcases]); [.. | subst m];
    cbn [Z.testbit Z.odd Pos.testbit Z.to_N N.pred Pos.pred_N
         Pos.pred_double];
    rewrite ?Z.lor_0_r, ?Z.lor_0_l; reflexivity.
Qed.

Lemma wgm1_bits (m : Z) :
  bits_in (wgm1_A io m) [WGM10 io; WGM11 io] /\
  bits_in (wgm1_B io m) [WGM12 io; WGM13 io].
Proof. unfold wgm1_A, wgm1_B. split; auto 6 with bits. Qed.

End Timer1Table.

(** C6, as the sources have it.  The table of timer 1 has 16 rows; row
    [m] holds mode number [m], bits 0 and 1 in fragment A (WGM10,
    WGM11) and bits 2 and 3 in fragment B (WGM12, WGM13), so each
    fragment has at most two bits set, the reserved row 13 being in its
    place. *)
Theorem timer1_modes_two_bits_each (io : IoDefs) (m : Z) :
  0 <= m < 16 ->
  List.length (Timer1.Modes io) = 16%nat /\
  exists fa fb,
    entry (Timer1.Modes io) m 0 = Some fa /\
    entry (Timer1.Modes io) m 1 = Some fb /\
    fa = wgm1_A io m /\ fb = wgm1_B io m /\
    (popcount8 fa <= 2)%nat /\ (popcount8 fb <= 2)%nat.
Proof.
  intros Hm. split; [reflexivity |].
  pose proof (timer1_row io m Hm) as Hr.
  destruct (wgm1_bits io m) as [HA HB].
  exists (wgm1_A io m), (wgm1_B io m).
  rewrite !(entry_row _ _ _ _ Hr).
  repeat split.
  - exact (popcount8_le _ _ HA).
  - exact (popcount8_le _ _ HB).
Qed.

Lemma timer1_modes_two_bits_each_witness :
  0 <= 13 < 16 /\
  List.length (Timer1.Modes atmega328p) = 16%nat /\
  exists fa fb,
    entry (Timer1.Modes atmega328p) 13 0 = Some fa /\
    entry (Timer1.Modes atmega328p) 13 1 = Some fb /\
    fa = wgm1_A atmega328p 13 /\ fb = wgm1_B atmega328p 13 /\
    (popcount8 fa <= 2)%nat /\ (popcount8 fb <= 2)%nat.
Proof.
  assert (H : 0 <= 13 < 16) by lia.
  split; [exact H |].
  apply (timer1_modes_two_bits_each atmega328p 13); exact H.
Defined.

(** C6 as worded fails: on the ATmega328P fragment B of row 12 of timer
    1 is [_BV (WGM12) | _BV (WGM13)], two mode bits and not one. *)
Lemma timer1_fragment_B_has_two_bits :
  entry (Timer1.Modes atmega328p) 12 1 = Some 24 /\
  popcount8 24 = 2%nat /\
  ~ (forall m fb, 0 <= m < 16 ->
                  entry (Timer1.Modes atmega328p) m 1 = Some fb ->
                  (popcount8 fb <= 1)%nat).
Proof.
  split; [reflexivity |]. split; [reflexivity |].
  intros H. specialize (H 12 24 ltac:(lia) eq_refl).
  cbv in H. lia.
Qed.

(* ================================================================= *)
(** ** Mode, clock and port bits side by side *)

Section Fields.

Variable io : IoDefs.

Lemma BV_nonneg (k : Z) : 0 <= _BV k.
Proof. unfold _BV. apply Z.shiftl_nonneg. lia. Qed.

Lemma named_clock_small (t : timer) (c : Z) :
  named (clock_enum t) c -> 0 <= c < 8.
Proof.
  unfold named. destruct t; cbn; intros H;
    repeat (destruct H as [<- | H]; [lia |]); contradiction.
Qed.

Lemma named_port_bits (t : timer) (p : Z) :
  named (port_enum io t) p -> bits_in p (com_A io t) /\ 0 <= p.
Proof.
  unfold named. destruct t; cbn; intros H;
    repeat (destruct H as [<- | H];
            [split;
             [auto 6 with bits
             | rewrite ?Z.lor_nonneg; auto using BV_nonneg, Z.le_refl] |]);
    contradiction.
Qed.

Lemma or_of_ports_bits (t : timer) (ps : list Z) :
  Forall (named (port_enum io t)) ps ->
  bits_in (or_of ps) (com_A io t) /\ 0 <= or_of ps.
Proof.
  induction 1 as [| p ps Hp _ [IHb IHn]]; cbn.
  - split; [apply bits_in_0 | lia].
  - destruct (named_port_bits t p Hp) as [Hb Hn]. split.
    + now apply bits_in_lor.
    + now apply Z.lor_nonneg.
Qed.

Lemma layout_ok_facts (t : timer) :
  layout_ok io t = true ->
  (forall k, In k (wgm_A io t) -> In k (com_A io t) -> False) /\
  (forall k, In k (com_A io t) -> k < 8) /\
  (forall k, In k (wgm_B io t) -> In k [0; 1; 2] -> False).
Proof.
  unfold layout_ok. rewrite !andb_true_iff, !forallb_forall.
  intros [[Hsep Hcom] Hwgm]. repeat split.
  - intros k Hw Hc. specialize (Hsep k Hw).
    apply negb_true_iff in Hsep.
    assert (mem k (com_A io t) = true); [| congruence].
    apply existsb_exists. exists k. split; [assumption | apply Z.eqb_refl].
  - intros k Hc. apply Z.ltb_lt. now apply Hcom.
  - intros k Hw Hk. specialize (Hwgm k Hw). apply Z.leb_le in Hwgm.
    cbn in Hk. lia.
Qed.

Lemma bits_in_byte (p : Z) (ks : list Z) :
  bits_in p ks -> (forall k, In k ks -> k < 8) -> 0 <= p -> is_byte p.
Proof.
  intros Hb Hks Hp. apply is_byte_bits. split; [assumption |].
  intros i Hi. destruct (Z.testbit p i) eqn:E; [| reflexivity].
  specialize (Hks i (Hb i E)). lia.
Qed.

End Fields.

(** C9.  On a register layout that keeps the fields apart (no WGM bit
    of register A is a COM bit, the COM bits are bits of a byte, the
    WGM bits of register B lie above the clock select bits), for each
    timer, each row [m] of its table, each named clock constant [c] and
    each OR [p] of named port constants: [Modes[m][1] & c = 0] and
    [Modes[m][0] & p = 0]; the registers that [setMode] writes are then
    the sums of the two parts, and they determine the mode fragments,
    the clock and the port. *)
Theorem mode_bits_apart_from_clock_and_port
  (io : IoDefs) (t : timer) (m fa fb c : Z) (ps : list Z) :
  layout_ok io t = true ->
  entry (Modes io t) m 0 = Some fa ->
  entry (Modes io t) m 1 = Some fb ->
  named (clock_enum t) c ->
  Forall (named (port_enum io t)) ps ->
  Z.land fb c = 0 /\
  Z.land fa (or_of ps) = 0 /\
  (forall s, exists s',
      setMode io t m c (or_of ps) s = Some (tt, s') /\
      get (ctlA t) s' = fa + or_of ps /\
      get (ctlB t) s' = fb + c) /\
  (forall m' fa' fb' c' ps' s s1 s2,
      entry (Modes io t) m' 0 = Some fa' ->
      entry (Modes io t) m' 1 = Some fb' ->
      named (clock_enum t) c' ->
      Forall (named (port_enum io t)) ps' ->
      setMode io t m c (or_of ps) s = Some (tt, s1) ->
      setMode io t m' c' (or_of ps') s = Some (tt, s2) ->
      get (ctlA t) s1 = get (ctlA t) s2 ->
      get (ctlB t) s1 = get (ctlB t) s2 ->
      fa = fa' /\ fb = fb' /\ c = c' /\ or_of ps = or_of ps').
Proof.
  intros Hlay Ha Hb Hc Hps.
  destruct (layout_ok_facts io t Hlay) as (HsepA & Hcom & HsepB).
  destruct (entry_bits io t m fa fb Ha Hb) as (Hm & Bfa & Bfb & Wa & Wb).
  destruct (or_of_ports_bits io t ps Hps) as [Pb Pn].
  pose proof (bits_in_byte _ _ Pb Hcom Pn) as Bp.
  pose proof (named_clock_small t c Hc) as Hc8.
  pose proof (bits_in_small c Hc8) as Cb.
  assert (Bc : is_byte c) by (unfold is_byte; lia).
  assert (LB : Z.land fb c = 0) by (eapply land_apart; eauto).
  assert (LA : Z.land fa (or_of ps) = 0) by (eapply land_apart; eauto).
  assert (Run : forall s,
             setMode io t m c (or_of ps) s
             = Some (tt, configured t fa fb c (or_of ps) s))
    by (intros s; now apply setMode_accepted).
  repeat match goal with |- _ /\ _ => split end; try assumption.
  - intros s. eexists. split; [apply Run |].
    rewrite get_configured_A, get_configured_B, !lor_byte by assumption.
    split; now apply lor_apart_add.
  - intros m' fa' fb' c' ps' s s1 s2 Ha' Hb' Hc' Hps' R1 R2 EA EB.
    destruct (entry_bits io t m' fa' fb' Ha' Hb')
      as (Hm' & Bfa' & Bfb' & Wa' & Wb').
    destruct (or_of_ports_bits io t ps' Hps') as [Pb' Pn'].
    pose proof (bits_in_byte _ _ Pb' Hcom Pn') as Bp'.
    pose proof (named_clock_small t c' Hc') as Hc8'.
    pose proof (bits_in_small c' Hc8') as Cb'.
    assert (Bc' : is_byte c') by (unfold is_byte; lia).
    rewrite Run in R1. injection R1 as <-.
    rewrite (setMode_accepted io t m' c' (or_of ps') fa' fb' s Hm' Ha' Hb')
      in R2.
    injection R2 as <-.
    rewrite !get_configured_A, !lor_byte in EA by assumption.
    rewrite !get_configured_B, !lor_byte in EB by assumption.
    destruct (lor_apart_inj _ _ _ _ _ _ Wa Wa' Pb Pb' HsepA EA) as [-> ->].
    destruct (lor_apart_inj _ _ _ _ _ _ Wb Wb' Cb Cb' HsepB EB) as [-> ->].
    repeat split.
Qed.

Lemma mode_bits_apart_from_clock_and_port_witness :
  (layout_ok atmega328p T1 = true /\
   entry (Modes atmega328p T1) 13 0 = Some 1 /\
   entry (Modes atmega328p T1) 13 1 = Some 24 /\
   named (clock_enum T1) 6 /\
   Forall (named (port_enum atmega328p T1)) [64; 48]) /\
  (Z.land 24 6 = 0 /\
   Z.land 1 (or_of [64; 48]) = 0 /\
   (forall s, exists s',
       setMode atmega328p T1 13 6 (or_of [64; 48]) s = Some (tt, s') /\
       get (ctlA T1) s' = 1 + or_of [64; 48] /\
       get (ctlB T1) s' = 24 + 6) /\
   (forall m' fa' fb' c' ps' s s1 s2,
       entry (Modes atmega328p T1) m' 0 = Some fa' ->
       entry (Modes atmega328p T1) m' 1 = Some fb' ->
       named (clock_enum T1) c' ->
       Forall (named (port_enum atmega328p T1)) ps' ->
       setMode atmega328p T1 13 6 (or_of [64; 48]) s = Some (tt, s1) ->
       setMode atmega328p T1 m' c' (or_of ps') s = Some (tt, s2) ->
       get (ctlA T1) s1 = get (ctlA T1) s2 ->
       get (ctlB T1) s1 = get (ctlB T1) s2 ->
       1 = fa' /\ 24 = fb' /\ 6 = c' /\ or_of [64; 48] = or_of ps')).
Proof.
  assert (H1 : layout_ok atmega328p T1 = true) by reflexivity.
  assert (H2 : entry (Modes atmega328p T1) 13 0 = Some 1) by reflexivity.
  assert (H3 : entry (Modes atmega328p T1) 13 1 = Some 24) by reflexivity.
  assert (H4 : named (clock_enum T1) 6) by (unfold named; cbn; tauto).
  assert (H5 : Forall (named (port_enum atmega328p T1)) [64; 48])
    by (repeat constructor; unfold named; cbn; tauto).
  split; [repeat split; assumption |].
  exact (mode_bits_apart_from_clock_and_port
           atmega328p T1 13 1 24 6 [64; 48] H1 H2 H3 H4 H5).
Defined.

(* ================================================================= *)
(** ** The header's example and the ATmega328P *)

Lemma atmega328p_layout_ok (t : timer) : layout_ok atmega328p t = true.
Proof. destruct t; reflexivity. Qed.

(** [Timer1::setMode (4, Timer1::PRESCALE_1, Timer1::CLEAR_A_ON_COMPARE)],
    the call in the comment at the head of the library: CTC mode,
    clock without prescaling, OC1A cleared on compare. *)
Example header_example :
  enum_const (clock_enum T1) "PRESCALE_1" = Some 1 /\
  enum_const (port_enum atmega328p T1) "CLEAR_A_ON_COMPARE" = Some 128 /\
  setMode atmega328p T1 4 1 128 (mkRegs 3 5 255 255 2 7)
  = Some (tt, mkRegs 3 5 128 9 2 7).
Proof. repeat split. Qed.

(** A call on timer 0 with mode 8 changes nothing. *)
Example timer0_mode_8 :
  setMode atmega328p T0 8 1 128 (mkRegs 3 5 255 255 2 7)
  = Some (tt, mkRegs 3 5 255 255 2 7).
Proof. reflexivity. Qed.

(** A read of row 8 of an 8-row table is outside the table. *)
Example load_outside_table (io : IoDefs) (s : Regs) :
  load (Modes io T0) 8 0 s = None /\ load (Modes io T0) (-1) 0 s = None.
Proof. split; reflexivity. Qed.

(* ================================================================= *)
(** ** Calls one after another *)

Section Sequences.

Variable io : IoDefs.

(** A call either leaves the register file alone or configures the two
    registers of its timer from a row of the table. *)
Lemma setMode_cases (t : timer) (mode clock port : Z) :
  (~ 0 <= mode < table_size t /\
   forall s, setMode io t mode clock port s = Some (tt, s)) \/
  (0 <= mode < table_size t /\
   exists fa fb,
     entry (Modes io t) mode 0 = Some fa /\
     entry (Modes io t) mode 1 = Some fb /\
     forall s, setMode io t mode clock port s
               = Some (tt, configured t fa fb clock port s)).
Proof.
  destruct (out_of_range t mode) eqn:E.
  - apply out_of_range_true in E. left. split; [exact E |].
    intros s. now apply setMode_rejected.
  - apply out_of_range_false in E. right. split; [exact E |].
    destruct (entry_in_range io t mode E) as (fa & fb & Ha & Hb & _).
    exists fa, fb. repeat split; try assumption.
    intros s. now apply setMode_accepted.
Qed.

Lemma configured_commute (t t' : timer) (fa fb c p fa' fb' c' p' : Z) (s : Regs) :
  t <> t' ->
  configured t fa fb c p (configured t' fa' fb' c' p' s)
  = configured t' fa' fb' c' p' (configured t fa fb c p s).
Proof. destruct t, t'; intros H; try reflexivity; now contradiction H. Qed.

Lemma configured_over (t : timer) (fa fb c p fa' fb' c' p' : Z) (s : Regs) :
  configured t fa fb c p (configured t fa' fb' c' p' s)
  = configured t fa fb c p s.
Proof. destruct t; reflexivity. Qed.

End Sequences.

(** X1.  A call of a timer's [setMode], whatever its arguments, leaves
    the four control registers of the other two timers as they were. *)
Theorem setMode_keeps_other_timers
  (io : IoDefs) (t : timer) (mode clock port : Z) (s s' : Regs) (r : reg) :
  setMode io t mode clock port s = Some (tt, s') ->
  reg_eqb r (ctlA t) = false -> reg_eqb r (ctlB t) = false ->
  get r s' = get r s.
Proof.
  intros Run HA HB.
  destruct (setMode_cases io t mode clock port)
    as [[_ Hs] | [_ (fa & fb & _ & _ & Hs)]];
    rewrite Hs in Run; injection Run as <-; [reflexivity |].
  now apply get_configured_other.
Qed.

Lemma setMode_keeps_other_timers_witness :
  (setMode atmega328p T1 14 2 192 (mkRegs 11 12 13 14 15 16)
   = Some (tt, mkRegs 11 12 194 26 15 16) /\
   reg_eqb TCCR2B (ctlA T1) = false /\ reg_eqb TCCR2B (ctlB T1) = false) /\
  get TCCR2B (mkRegs 11 12 194 26 15 16)
  = get TCCR2B (mkRegs 11 12 13 14 15 16).
Proof.
  assert (H1 : setMode atmega328p T1 14 2 192 (mkRegs 11 12 13 14 15 16)
               = Some (tt, mkRegs 11 12 194 26 15 16)) by reflexivity.
  assert (H2 : reg_eqb TCCR2B (ctlA T1) = false) by reflexivity.
  assert (H3 : reg_eqb TCCR2B (ctlB T1) = false) by reflexivity.
  split; [repeat split; assumption |].
  exact (setMode_keeps_other_timers atmega328p T1 14 2 192 _ _ TCCR2B
           H1 H2 H3).
Defined.

(** X2.  Calls of the [setMode] of two different timers commute: in
    either order they end with the same register file. *)
Theorem setMode_of_two_timers_commute
  (io : IoDefs) (t t' : timer) (m c p m' c' p' : Z) (s : Regs) :
  t <> t' ->
  and_then (setMode io t m c p) (setMode io t' m' c' p') s
  = and_then (setMode io t' m' c' p') (setMode io t m c p) s.
Proof.
  intros Hne. unfold and_then, bind.
  destruct (setMode_cases io t m c p)
    as [[_ H1] | [_ (fa & fb & _ & _ & H1)]];
    destruct (setMode_cases io t' m' c' p')
      as [[_ H2] | [_ (fa' & fb' & _ & _ & H2)]];
    repeat (rewrite ?H1, ?H2; cbv beta iota); try reflexivity.
  now rewrite configured_commute.
Qed.

Lemma setMode_of_two_timers_commute_witness :
  T0 <> T2 /\
  and_then (setMode atmega328p T0 2 3 128) (setMode atmega328p T2 7 4 48)
    (mkRegs 1 1 1 1 1 1)
  = and_then (setMode atmega328p T2 7 4 48) (setMode atmega328p T0 2 3 128)
      (mkRegs 1 1 1 1 1 1).
Proof.
  assert (H : T0 <> T2) by discriminate.
  split; [exact H |].
  exact (setMode_of_two_timers_commute atmega328p T0 T2 2 3 128 7 4 48 _ H).
Defined.

(** X3.  On one timer a call with a mode index inside the table
    supersedes any call before it: the two in a row end as the later
    one alone. *)
Theorem setMode_later_call_wins
  (io : IoDefs) (t : timer) (m c p m' c' p' : Z) (s : Regs) :
  0 <= m' < table_size t ->
  and_then (setMode io t m c p) (setMode io t m' c' p') s
  = setMode io t m' c' p' s.
Proof.
  intros Hm'. unfold and_then, bind.
  destruct (entry_in_range io t m' Hm') as (fa' & fb' & Ha' & Hb' & _).
  destruct (setMode_cases io t m c p)
    as [[_ H1] | [_ (fa & fb & _ & _ & H1)]]; rewrite H1; cbv beta iota;
    [reflexivity |].
  rewrite !(setMode_accepted io t m' c' p' fa' fb' _ Hm' Ha' Hb').
  now rewrite configured_over.
Qed.

Lemma setMode_later_call_wins_witness :
  0 <= 4 < table_size T1 /\
  and_then (setMode atmega328p T1 15 5 240) (setMode atmega328p T1 4 1 0)
    (mkRegs 0 0 0 0 0 0)
  = setMode atmega328p T1 4 1 0 (mkRegs 0 0 0 0 0 0).
Proof.
  assert (H : 0 <= 4 < table_size T1) by (cbn; lia).
  split; [exact H |].
  exact (setMode_later_call_wins atmega328p T1 15 5 240 4 1 0 _ H).
Defined.

(* ================================================================= *)
(** ** The tables as mode numbers *)

Section ModeNumbers.

Variable io : IoDefs.

Lemma mode_row (t : timer) (m : Z) :
  0 <= m < table_size t ->
  index (Modes io t) m = Some [mode_A io t m; mode_B io t m].
Proof.
  destruct t; cbn [table_size Modes mode_A mode_B]; intros Hm.
  - assert (Hcases : m = 0 \/ m = 1 \/ m = 2 \/ m = 3 \/ m = 4 \/ m = 5
                     \/ m = 6 \/ m = 7) by lia.
    unfold wgm_bit.
    repeat (destruct Hcases as [-> | Hcases]); [.. | subst m];
      cbn [Z.testbit Z.odd Pos.testbit Z.to_N N.pred Pos.pred_N
           Pos.pred_double];
      rewrite ?Z.lor_0_r, ?Z.lor_0_l; reflexivity.
  - now apply timer1_row.
  - assert (Hcases : m = 0 \/ m = 1 \/ m = 2 \/ m = 3 \/ m = 4 \/ m = 5
                     \/ m = 6 \/ m = 7) by lia.
    unfold wgm_bit.
    repeat (destruct Hcases as [-> | Hcases]); [.. | subst m];
      cbn [Z.testbit Z.odd Pos.testbit Z.to_N N.pred Pos.pred_N
           Pos.pred_double];
      rewrite ?Z.lor_0_r, ?Z.lor_0_l; reflexivity.
Qed.

Lemma mode_fragment_bits (t : timer) (m : Z) :
  bits_in (mode_A io t m) (wgm_A io t) /\
  bits_in (mode_B io t m) (wgm_B io t).
Proof.
  destruct t; cbn [mode_A mode_B wgm_A wgm_B];
    try apply wgm1_bits; split; auto 6 with bits.
Qed.

End ModeNumbers.

(** X4.  In each timer's table row [m] is the mode number [m] written
    on the WGM bits: bits 0 and 1 of [m] in the register A fragment,
    bit 2 (and for timer 1 bit 3) in the register B fragment.  So the
    A fragment has at most two bits set, and the B fragment at most one
    in timers 0 and 2 and at most two in timer 1. *)
Theorem modes_row_is_mode_number (io : IoDefs) (t : timer) (m : Z) :
  0 <= m < table_size t ->
  entry (Modes io t) m 0 = Some (mode_A io t m) /\
  entry (Modes io t) m 1 = Some (mode_B io t m) /\
  (popcount8 (mode_A io t m) <= 2)%nat /\
  (popcount8 (mode_B io t m) <= match t with T1 => 2 | _ => 1 end)%nat.
Proof.
  intros Hm. pose proof (mode_row io t m Hm) as Hr.
  destruct (mode_fragment_bits io t m) as [HA HB].
  rewrite !(entry_row _ _ _ _ Hr).
  split; [reflexivity |]. split; [reflexivity |]. split.
  - apply popcount8_le in HA. now destruct t.
  - apply popcount8_le in HB. now destruct t.
Qed.

Lemma modes_row_is_mode_number_witness :
  0 <= 6 < table_size T2 /\
  entry (Modes atmega328p T2) 6 0 = Some (mode_A atmega328p T2 6) /\
  entry (Modes atmega328p T2) 6 1 = Some (mode_B atmega328p T2 6) /\
  (popcount8 (mode_A atmega328p T2 6) <= 2)%nat /\
  (popcount8 (mode_B atmega328p T2 6) <= 1)%nat.
Proof.
  assert (H : 0 <= 6 < table_size T2) by (cbn; lia).
  split; [exact H |].
  exact (modes_row_is_mode_number atmega328p T2 6 H).
Defined.

(* ================================================================= *)
(** ** Reading the fields back *)

Section ReadBack.

Variable io : IoDefs.

Lemma testbit_wgm_bit (m k pos i : Z) :
  0 <= i -> Z.testbit (wgm_bit m k pos) i = Z.testbit m k && (i =? pos).
Proof.
  intros Hi. unfold wgm_bit. destruct (Z.testbit m k); cbn [andb].
  - rewrite testbit_BV. destruct (Z.leb_spec 0 i); [reflexivity | lia].
  - apply Z.bits_0.
Qed.

(** One WGM bit of a fragment made of two. *)
Lemma testbit_two (m k1 k2 w1 w2 w : Z) :
  0 <= w < 8 ->
  Z.testbit (to_byte (Z.lor (wgm_bit m k1 w1) (wgm_bit m k2 w2))) w
  = Z.testbit m k1 && (w =? w1) || Z.testbit m k2 && (w =? w2).
Proof.
  intros Hw. rewrite testbit_to_byte, Z.lor_spec, !testbit_wgm_bit by lia.
  destruct (Z.ltb_spec w 8); [reflexivity | lia].
Qed.

Lemma testbit_one (m k w1 w : Z) :
  0 <= w < 8 ->
  Z.testbit (to_byte (wgm_bit m k w1)) w = Z.testbit m k && (w =? w1).
Proof.
  intros Hw. rewrite testbit_to_byte, testbit_wgm_bit by lia.
  destruct (Z.ltb_spec w 8); [reflexivity | lia].
Qed.

Lemma bits_in_false (x : Z) (ks : list Z) (w : Z) :
  bits_in x ks -> ~ In w ks -> Z.testbit x w = false.
Proof.
  intros Hx Hw. destruct (Z.testbit x w) eqn:E; [| reflexivity].
  contradiction Hw. now apply Hx.
Qed.

(** The WGM bits of the fragments of row [m] spell [m]. *)
Lemma wgm_of_fragments (t : timer) (m : Z) :
  wgm_readable io t = true ->
  (map (Z.testbit (mode_A io t m)) (wgm_A io t)
   ++ map (Z.testbit (mode_B io t m)) (wgm_B io t))%list
  = mode_bits t m.
Proof.
  unfold wgm_readable, mode_bits.
  destruct t;
    cbn [wgm_A wgm_B mode_A mode_B distinct mem existsb forallb app map];
    unfold wgm1_A, wgm1_B;
    rewrite !andb_true_iff, ?orb_false_r, ?negb_true_iff,
      ?Z.eqb_neq, ?Z.leb_le, ?Z.ltb_lt;
    intros H; decompose [and] H; clear H;
    rewrite ?testbit_two, ?testbit_one by lia;
    rewrite ?Z.eqb_refl;
    repeat match goal with
      | |- context [?a =? ?b] =>
          destruct (Z.eqb_spec a b); [congruence |]
      end;
    rewrite ?andb_true_r, ?andb_false_r, ?orb_false_r, ?orb_false_l;
    reflexivity.
Qed.

Lemma small_bits (m n : Z) :
  0 <= n -> 0 <= m < 2 ^ n -> forall i, n <= i -> Z.testbit m i = false.
Proof.
  intros Hn Hm i Hi.
  rewrite <- (Z.mod_small m (2 ^ n)) by assumption.
  rewrite Z.testbit_mod_pow2 by assumption.
  destruct (Z.ltb_spec i n); [lia | reflexivity].
Qed.

Lemma mode_bits_inj (t : timer) (m m' : Z) :
  0 <= m < table_size t -> 0 <= m' < table_size t ->
  mode_bits t m = mode_bits t m' -> m = m'.
Proof.
  intros Hm Hm' E. apply Z.bits_inj'. intros i Hi.
  assert (three : forall a b, 0 <= a < 8 -> 0 <= b < 8 ->
                    [Z.testbit a 0; Z.testbit a 1; Z.testbit a 2]
                    = [Z.testbit b 0; Z.testbit b 1; Z.testbit b 2] ->
                    Z.testbit a i = Z.testbit b i).
  { intros a b Ha Hb Eab. injection Eab as E0 E1 E2.
    destruct (Z.lt_ge_cases i 3) as [Hlt | Hge].
    - assert (Hc : i = 0 \/ i = 1 \/ i = 2) by lia.
      destruct Hc as [-> | [-> | ->]]; assumption.
    - rewrite (small_bits a 3), (small_bits b 3) by (cbn; lia).
      reflexivity. }
  destruct t; cbn in Hm, Hm', E; try (now apply three).
  injection E as E0 E1 E2 E3.
  destruct (Z.lt_ge_cases i 4) as [Hlt | Hge].
  - assert (Hc : i = 0 \/ i = 1 \/ i = 2 \/ i = 3) by lia.
    destruct Hc as [-> | [-> | [-> | ->]]]; assumption.
  - rewrite (small_bits m 4), (small_bits m' 4) by (cbn; lia).
    reflexivity.
Qed.

Lemma or_of_cons (x : Z) (l : list Z) : or_of (x :: l) = Z.lor x (or_of l).
Proof. reflexivity. Qed.

Lemma testbit_com_mask (l : list Z) (i : Z) :
  0 <= i -> In i l -> Z.testbit (or_of (map _BV l)) i = true.
Proof.
  intros Hi. induction l as [| k l IH]; cbn [In map]; [contradiction |].
  rewrite or_of_cons, Z.lor_spec. intros [-> | Hin].
  - rewrite testbit_BV, Z.eqb_refl.
    destruct (Z.leb_spec 0 i); [reflexivity | lia].
  - rewrite IH by assumption. apply orb_true_r.
Qed.

Lemma com_mask_bits (l : list Z) : bits_in (or_of (map _BV l)) l.
Proof.
  induction l as [| k l IH]; cbn [map].
  - apply bits_in_0.
  - rewrite or_of_cons. apply bits_in_lor.
    + apply bits_in_BV. now left.
    + intros i Hi. right. now apply IH.
Qed.

Lemma testbit_true_nonneg (x i : Z) : Z.testbit x i = true -> 0 <= i.
Proof.
  intros H. destruct (Z.leb_spec 0 i); [assumption |].
  rewrite Z.testbit_neg_r in H by assumption. discriminate.
Qed.

(** The part of an OR that lies on given positions. *)
Lemma land_lor_field (a b mask : Z) (ka kb : list Z) :
  bits_in a ka -> bits_in b kb -> bits_in mask kb ->
  (forall i, 0 <= i -> In i kb -> Z.testbit mask i = true) ->
  (forall k, In k ka -> In k kb -> False) ->
  Z.land (Z.lor a b) mask = b.
Proof.
  intros Ha Hb Hm Hfull Hsep. apply Z.bits_inj'. intros i Hi.
  rewrite Z.land_spec, Z.lor_spec.
  destruct (Z.testbit b i) eqn:Eb.
  - rewrite orb_true_r, (Hfull i Hi (Hb i Eb)). reflexivity.
  - rewrite orb_false_r.
    destruct (Z.testbit a i) eqn:Ea, (Z.testbit mask i) eqn:Em;
      try reflexivity.
    exfalso. eauto.
Qed.

End ReadBack.

Section FieldsOfRegisters.

Variable io : IoDefs.

Lemma bits_in_app_l (x : Z) (ks ls : list Z) :
  bits_in x ks -> bits_in x (ks ++ ls)%list.
Proof. intros H i Hi. apply in_or_app. left. now apply H. Qed.

Lemma bits_in_app_r (x : Z) (ks ls : list Z) :
  bits_in x ls -> bits_in x (ks ++ ls)%list.
Proof. intros H i Hi. apply in_or_app. right. now apply H. Qed.

Lemma seven_full (i : Z) : 0 <= i -> In i [0; 1; 2] -> Z.testbit 7 i = true.
Proof. intros _ [<- | [<- | [<- | []]]]; reflexivity. Qed.

Lemma map_testbit_lor (a b : Z) (ka kb ws : list Z) :
  bits_in b kb -> (forall k, In k ka -> In k kb -> False) -> incl ws ka ->
  map (Z.testbit (Z.lor a b)) ws = map (Z.testbit a) ws.
Proof.
  intros Hb Hsep Hws. apply map_ext_in. intros w Hw.
  rewrite Z.lor_spec, (bits_in_false b kb w Hb); [apply orb_false_r |].
  intros Hk. exact (Hsep w (Hws w Hw) Hk).
Qed.

End FieldsOfRegisters.

(** X5.  On a register layout that keeps the fields apart and gives
    each WGM bit its own bit of a byte, after [setMode] with a mode
    number [m] inside the table, a named clock constant [c] and an OR
    [p] of named port constants, the fields read back from the two
    registers are the arguments: the WGM bits spell [m], the three
    clock select bits of register B are [c], and the COM bits of
    register A are [p]. *)
Theorem setMode_fields_read_back
  (io : IoDefs) (t : timer) (m c : Z) (ps : list Z) (s : Regs) :
  layout_ok io t = true -> wgm_readable io t = true ->
  0 <= m < table_size t ->
  named (clock_enum t) c ->
  Forall (named (port_enum io t)) ps ->
  exists s',
    setMode io t m c (or_of ps) s = Some (tt, s') /\
    wgm_field io t s' = mode_bits t m /\
    Z.land (get (ctlB t) s') 7 = c /\
    Z.land (get (ctlA t) s') (com_mask io t) = or_of ps.
Proof.
  intros Hlay Hread Hm Hc Hps.
  destruct (layout_ok_facts io t Hlay) as (HsepA & Hcom & HsepB).
  pose proof (mode_row io t m Hm) as Hr.
  pose proof (entry_row _ _ _ 0 Hr) as Ha.
  pose proof (entry_row _ _ _ 1 Hr) as Hb.
  cbn [index Z.ltb Z.compare Z.to_nat Pos.to_nat Pos.iter_op Nat.add
         nth_error] in Ha, Hb.
  destruct (entry_bits io t m _ _ Ha Hb) as (_ & Bfa & Bfb & Wa & Wb).
  destruct (or_of_ports_bits io t ps Hps) as [Pb Pn].
  pose proof (bits_in_byte _ _ Pb Hcom Pn) as Bp.
  pose proof (named_clock_small t c Hc) as Hc8.
  pose proof (bits_in_small c Hc8) as Cb.
  assert (Bc : is_byte c) by (unfold is_byte; lia).
  exists (configured t (mode_A io t m) (mode_B io t m) c (or_of ps) s).
  split; [now apply setMode_accepted |].
  unfold wgm_field.
  rewrite get_configured_A, get_configured_B, !lor_byte by assumption.
  repeat split.
  - rewrite (map_testbit_lor _ _ _ _ _ Pb HsepA (incl_refl _)).
    rewrite (map_testbit_lor _ _ _ _ _ Cb HsepB (incl_refl _)).
    now apply wgm_of_fragments.
  - eapply land_lor_field; eauto using seven_full.
    apply bits_in_small. lia.
  - eapply land_lor_field; eauto using com_mask_bits.
    intros i Hi Hin. now apply testbit_com_mask.
Qed.

Lemma setMode_fields_read_back_witness :
  (layout_ok atmega328p T1 = true /\ wgm_readable atmega328p T1 = true /\
   0 <= 14 < table_size T1 /\
   named (clock_enum T1) 3 /\
   Forall (named (port_enum atmega328p T1)) [128; 32]) /\
  exists s',
    setMode atmega328p T1 14 3 (or_of [128; 32]) (mkRegs 0 0 0 0 0 0)
    = Some (tt, s') /\
    wgm_field atmega328p T1 s' = mode_bits T1 14 /\
    Z.land (get (ctlB T1) s') 7 = 3 /\
    Z.land (get (ctlA T1) s') (com_mask atmega328p T1) = or_of [128; 32].
Proof.
  assert (H1 : layout_ok atmega328p T1 = true) by reflexivity.
  assert (H2 : wgm_readable atmega328p T1 = true) by reflexivity.
  assert (H3 : 0 <= 14 < table_size T1) by (cbn; lia).
  assert (H4 : named (clock_enum T1) 3) by (unfold named; cbn; tauto).
  assert (H5 : Forall (named (port_enum atmega328p T1)) [128; 32])
    by (repeat constructor; unfold named; cbn; tauto).
  split; [exact (conj H1 (conj H2 (conj H3 (conj H4 H5)))) |].
  exact (setMode_fields_read_back atmega328p T1 14 3 [128; 32] _
           H1 H2 H3 H4 H5).
Defined.

(** X6.  When each WGM bit has its own bit of a byte, no two rows of a
    timer's table are equal: two different mode numbers inside the
    table differ in one of their two fragments. *)
Theorem modes_rows_are_distinct (io : IoDefs) (t : timer) (m m' : Z) :
  wgm_readable io t = true ->
  0 <= m < table_size t -> 0 <= m' < table_size t ->
  m <> m' ->
  ~ (entry (Modes io t) m 0 = entry (Modes io t) m' 0 /\
     entry (Modes io t) m 1 = entry (Modes io t) m' 1).
Proof.
  intros Hread Hm Hm' Hne [EA EB]. apply Hne.
  rewrite (entry_row _ _ _ 0 (mode_row io t m Hm)),
    (entry_row _ _ _ 0 (mode_row io t m' Hm')) in EA.
  rewrite (entry_row _ _ _ 1 (mode_row io t m Hm)),
    (entry_row _ _ _ 1 (mode_row io t m' Hm')) in EB.
  cbn [index Z.ltb Z.compare Z.to_nat Pos.to_nat Pos.iter_op Nat.add
         nth_error] in EA, EB.
  injection EA as EA. injection EB as EB.
  apply (mode_bits_inj t); try assumption.
  rewrite <- !(wgm_of_fragments io t) by assumption.
  now rewrite EA, EB.
Qed.

Lemma modes_rows_are_distinct_witness :
  (wgm_readable atmega328p T1 = true /\
   0 <= 5 < table_size T1 /\ 0 <= 13 < table_size T1 /\ 5 <> 13) /\
  ~ (entry (Modes atmega328p T1) 5 0 = entry (Modes atmega328p T1) 13 0 /\
     entry (Modes atmega328p T1) 5 1 = entry (Modes atmega328p T1) 13 1).
Proof.
  assert (H1 : wgm_readable atmega328p T1 = true) by reflexivity.
  assert (H2 : 0 <= 5 < table_size T1) by (cbn; lia).
  assert (H3 : 0 <= 13 < table_size T1) by (cbn; lia).
  assert (H4 : 5 <> 13) by lia.
  split; [exact (conj H1 (conj H2 (conj H3 H4))) |].
  exact (modes_rows_are_distinct atmega328p T1 5 13 H1 H2 H3 H4).
Defined.

(** X7.  After [setMode] with a mode number inside the table, a named
    clock constant and an OR of named port constants, register A has no
    bit set besides WGM and COM bits of that register, and register B
    none besides its WGM bits and the three clock select bits. *)
Theorem setMode_sets_only_field_bits
  (io : IoDefs) (t : timer) (m c : Z) (ps : list Z) (s : Regs) :
  0 <= m < table_size t ->
  named (clock_enum t) c ->
  Forall (named (port_enum io t)) ps ->
  exists s',
    setMode io t m c (or_of ps) s = Some (tt, s') /\
    bits_in (get (ctlA t) s') (wgm_A io t ++ com_A io t)%list /\
    bits_in (get (ctlB t) s') (wgm_B io t ++ [0; 1; 2])%list.
Proof.
  intros Hm Hc Hps.
  destruct (entry_in_range io t m Hm) as (fa & fb & Ha & Hb & _).
  destruct (entry_bits io t m fa fb Ha Hb) as (_ & _ & _ & Wa & Wb).
  destruct (or_of_ports_bits io t ps Hps) as [Pb _].
  pose proof (bits_in_small c (named_clock_small t c Hc)) as Cb.
  exists (configured t fa fb c (or_of ps) s).
  rewrite get_configured_A, get_configured_B.
  split; [now apply setMode_accepted |].
  split; apply bits_in_to_byte, bits_in_lor;
    (now apply bits_in_app_l) || (now apply bits_in_app_r).
Qed.

Lemma setMode_sets_only_field_bits_witness :
  (0 <= 7 < table_size T0 /\
   named (clock_enum T0) 7 /\
   Forall (named (port_enum atmega328p T0)) [192; 48]) /\
  exists s',
    setMode atmega328p T0 7 7 (or_of [192; 48]) (mkRegs 255 255 0 0 0 0)
    = Some (tt, s') /\
    bits_in (get (ctlA T0) s')
      (wgm_A atmega328p T0 ++ com_A atmega328p T0)%list /\
    bits_in (get (ctlB T0) s') (wgm_B atmega328p T0 ++ [0; 1; 2])%list.
Proof.
  assert (H1 : 0 <= 7 < table_size T0) by (cbn; lia).
  assert (H2 : named (clock_enum T0) 7) by (unfold named; cbn; tauto).
  assert (H3 : Forall (named (port_enum atmega328p T0)) [192; 48])
    by (repeat constructor; unfold named; cbn; tauto).
  split; [exact (conj H1 (conj H2 H3)) |].
  exact (setMode_sets_only_field_bits atmega328p T0 7 7 [192; 48] _
           H1 H2 H3).
Defined.

(* ================================================================= *)
(** ** Clock constants from one timer to another *)

(** X8.  A clock constant name of timer 0 or timer 1 that timer 2 has
    too stands for the same number there only up to [PRESCALE_8]
    (values 0, 1, 2); from [PRESCALE_64] on the number in timer 2 is
    larger, its enumeration having [PRESCALE_32] and [PRESCALE_128] in
    between. *)
Theorem timer2_clock_constants_differ
  (t : timer) (name : string) (v v2 : Z) :
  t <> T2 ->
  enum_const (clock_enum t) name = Some v ->
  enum_const (clock_enum T2) name = Some v2 ->
  (v <= 2 /\ v2 = v) \/ (3 <= v /\ v < v2).
Proof.
  intros Ht H H2.
  destruct t; [| | contradiction]; cbn in H, H2;
    repeat match type of H with
      | context [String.eqb name ?n] =>
          destruct (String.eqb_spec name n);
          [subst name; cbn in H2;
           injection H as <-; try injection H2 as <-;
           try discriminate; lia |]
      end;
    discriminate.
Qed.

Lemma timer2_clock_constants_differ_witness :
  (T0 <> T2 /\
   enum_const (clock_enum T0) "PRESCALE_64" = Some 3 /\
   enum_const (clock_enum T2) "PRESCALE_64" = Some 4) /\
  ((3 <= 2 /\ 4 = 3) \/ (3 <= 3 /\ 3 < 4)).
Proof.
  assert (H1 : T0 <> T2) by discriminate.
  assert (H2 : enum_const (clock_enum T0) "PRESCALE_64" = Some 3)
    by reflexivity.
  assert (H3 : enum_const (clock_enum T2) "PRESCALE_64" = Some 4)
    by reflexivity.
  split; [exact (conj H1 (conj H2 H3)) |].
  exact (timer2_clock_constants_differ T0 "PRESCALE_64" 3 4 H1 H2 H3).
Defined.
